(** * Scoped enumeration bit flags

    A shallow embedding of [include/enum_flags/enum_flags.h]: the class
    template [EnumFlags<Enum>], its constructors, queries and mutators, and
    the enumeration [Opt] of the unit tests, followed by the properties of
    these operations.

    [RawType], the unsigned underlying type of the enumeration, is modelled
    by [Z] together with its number of value bits [digits]; a conversion to
    [RawType] reduces modulo [2 ^ digits].  A member function that can modify
    the object takes [*this] and gives back a pair: what it returns, and
    [*this] as the call leaves it. *)

From Stdlib Require Import ZArith Lia List Bool Permutation.
Import ListNotations.
Local Open Scope Z_scope.

(** ** The class template *)

(** [using RawType = std::underlying_type_t<std::decay_t<Enum>>] *)
Definition RawType : Type := Z.

(** A scoped enumeration with a fixed underlying type holds any value of that
    type; its enumerators are named constants of it.  [static_cast_Enum] and
    [to_underlying] go between the two without changing the value. *)
Record Enum : Type := static_cast_Enum { to_underlying : RawType }.

(** [class EnumFlags], with its one data member [RawType flags_ {0}]. *)
Record EnumFlags : Type := Build_EnumFlags { flags_ : RawType }.

(** Width of [int], the type a narrower [RawType] is promoted to before a
    shift (32 bits on the ILP32, LP64 and LLP64 data models). *)
Definition int_digits : Z := 32.

Section Class.

(** [std::numeric_limits<RawType>::digits] *)
Variable digits : Z.

(** The values of [RawType]. *)
Definition RawType_ok (x : Z) : Prop := 0 <= x < 2 ^ digits.

Definition Enum_ok (flag : Enum) : Prop := RawType_ok (to_underlying flag).

Definition EnumFlags_ok (this : EnumFlags) : Prop := RawType_ok (flags_ this).

(** [static_cast<RawType>(x)] *)
Definition static_cast_RawType (x : Z) : RawType := x mod 2 ^ digits.

(** [~x] on an operand of type [RawType]. *)
Definition RawType_not (x : RawType) : RawType := static_cast_RawType (Z.lnot x).

(** [static consteval RawType CreateFlag(const std::size_t shift)]:
    [static_cast<RawType>(1) << shift].  The shift is carried out in
    [RawType] after integral promotion; a shift by the width of that type
    or more is undefined, so the call is no constant expression and the
    program is rejected ([None]).  The result is converted to [RawType] as
    the unsigned integer types convert, modulo [2 ^ digits]; for [bool]
    ([digits = 1]), which converts every non-zero value to [true], this is
    the code's value only at shift [0], the one shift below the width. *)
Definition CreateFlag (shift : N) : option RawType :=
  if Z.of_N shift <? Z.max digits int_digits
  then Some (static_cast_RawType (Z.shiftl 1 (Z.of_N shift)))
  else None.

(** [constexpr operator RawType() const] *)
Definition operator_RawType (this : EnumFlags) : RawType := flags_ this.

(** [constexpr EnumFlags(const RawType flags = 0)] *)
Definition EnumFlags_of_RawType (flags : RawType) : EnumFlags :=
  {| flags_ := flags |}.

Definition EnumFlags_default : EnumFlags := EnumFlags_of_RawType 0.

(** [constexpr EnumFlags(const Enum flag)] *)
Definition EnumFlags_of_Enum (flag : Enum) : EnumFlags :=
  {| flags_ := to_underlying flag |}.

(** [EnumFlags {*this}]: the copy constructor. *)
Definition EnumFlags_copy (other : EnumFlags) : EnumFlags :=
  {| flags_ := flags_ other |}.

(** [constexpr EnumFlags& Clear()] *)
Definition Clear (this : EnumFlags) : EnumFlags * EnumFlags :=
  let this' := {| flags_ := 0 |} in (this', this').

(** [constexpr EnumFlags& Remove(const EnumFlags flags)]:
    [flags_ &= ~static_cast<RawType>(flags)]. *)
Definition Remove (this flags : EnumFlags) : EnumFlags * EnumFlags :=
  let this' :=
    {| flags_ := Z.land (flags_ this) (RawType_not (operator_RawType flags)) |} in
  (this', this').

(** [constexpr EnumFlags& Add(const EnumFlags flags)]:
    [flags_ |= static_cast<RawType>(flags)]. *)
Definition Add (this flags : EnumFlags) : EnumFlags * EnumFlags :=
  let this' := {| flags_ := Z.lor (flags_ this) (operator_RawType flags) |} in
  (this', this').

(** [constexpr bool Has(const Enum flag) const] *)
Definition Has (this : EnumFlags) (flag : Enum) : bool :=
  negb (Z.land (flags_ this) (to_underlying flag) =? 0).

(** [constexpr bool HasAll(const EnumFlags flags) const] *)
Definition HasAll (this flags : EnumFlags) : bool :=
  Z.land (flags_ this) (operator_RawType flags) =? operator_RawType flags.

(** [constexpr bool HasAny(const EnumFlags flags) const] *)
Definition HasAny (this flags : EnumFlags) : bool :=
  negb (Z.land (flags_ this) (operator_RawType flags) =? 0).

(** [constexpr bool HasAny() const] *)
Definition HasAny_none (this : EnumFlags) : bool := negb (flags_ this =? 0).

(** [constexpr bool operator&(const Enum flag) const] *)
Definition operator_and_Enum (this : EnumFlags) (flag : Enum) : bool :=
  Has this flag.

(** [constexpr bool operator&(const EnumFlags flags) const] *)
Definition operator_and (this flags : EnumFlags) : bool := HasAll this flags.

(** [constexpr EnumFlags& operator&=(const EnumFlags flags)]:
    [flags_ = flags], the argument converted by [operator RawType]. *)
Definition operator_and_assign (this flags : EnumFlags) : EnumFlags * EnumFlags :=
  let this' := {| flags_ := operator_RawType flags |} in (this', this').

(** [constexpr EnumFlags operator|(const EnumFlags flags) const]:
    [EnumFlags {*this}.Add(flags)].  The temporary is what [Add] works on. *)
Definition operator_or (this flags : EnumFlags) : EnumFlags * EnumFlags :=
  let temporary := EnumFlags_copy this in
  (fst (Add temporary flags), this).

(** [constexpr EnumFlags& operator|=(const EnumFlags flags)] *)
Definition operator_or_assign (this flags : EnumFlags) : EnumFlags * EnumFlags :=
  Add this flags.

(** [constexpr void swap(EnumFlags& flags)]: the object and the argument,
    as the call leaves them. *)
Definition swap (this flags : EnumFlags) : EnumFlags * EnumFlags :=
  ({| flags_ := flags_ flags |}, {| flags_ := flags_ this |}).

(** [template <typename Enum> constexpr void swap(EnumFlags<Enum>& lhs,
    EnumFlags<Enum>& rhs)]: [lhs.swap(rhs)]; both operands, as the call
    leaves them. *)
Definition swap_nonmember (lhs rhs : EnumFlags) : EnumFlags * EnumFlags :=
  swap lhs rhs.

(** [constexpr bool operator==(const EnumFlags&) const = default] *)
Definition operator_eq (this other : EnumFlags) : bool :=
  flags_ this =? flags_ other.

(** [constexpr void AddFlags(const Flags& flags)]: [std::ranges::for_each]
    over the range, in iteration order, each element converted to
    [EnumFlags] and handed to [Add]. *)
Definition AddFlags (this : EnumFlags) (flags : list Enum) : unit * EnumFlags :=
  (tt, fold_left (fun this flag => snd (Add this (EnumFlags_of_Enum flag))) flags this).

(** [constexpr EnumFlags(const std::initializer_list<Enum> flags)] *)
Definition EnumFlags_of_initializer_list (flags : list Enum) : EnumFlags :=
  snd (AddFlags {| flags_ := 0 |} flags).

(** [constexpr EnumFlags(Flags&& flags)], for a range whose value type is
    [Enum]; the list is the range in the order its iterator gives. *)
Definition EnumFlags_of_range (flags : list Enum) : EnumFlags :=
  snd (AddFlags {| flags_ := 0 |} flags).

(** ** Vocabulary of the properties *)

(** A flag: an enumeration value minted by [CreateFlag] with a shift below
    the width of [RawType]. *)
Definition is_flag (flag : Enum) : Prop :=
  exists shift : N, Z.of_N shift < digits /\ CreateFlag shift = Some (to_underlying flag).

(** Every bit set in [x] is set in [y]. *)
Definition bits_subset (x y : RawType) : Prop :=
  forall i, 0 <= i -> Z.testbit x i = true -> Z.testbit y i = true.

(** Some bit is set in both [x] and [y]. *)
Definition bits_meet (x y : RawType) : Prop :=
  exists i, 0 <= i /\ Z.testbit x i = true /\ Z.testbit y i = true.

(** The bitwise union of the underlying values of a collection, as the
    specification words it (compared with [EnumFlags_of_range] below). *)
Definition bitwise_union (flags : list Enum) : RawType :=
  fold_right (fun flag acc => Z.lor (to_underlying flag) acc) 0 flags.

End Class.

(** ** The enumeration of the unit tests

    [enum class Opt : unsigned int { A = CreateFlag(0), ..., E = CreateFlag(4) }] *)
Module Opt.

Definition digits : Z := 32.

Definition A : Enum := static_cast_Enum 1.
Definition B : Enum := static_cast_Enum 2.
Definition C : Enum := static_cast_Enum 4.
Definition D : Enum := static_cast_Enum 8.
Definition E : Enum := static_cast_Enum 16.

End Opt.


(** ** Bit-level facts *)

Lemma neq0_iff_bit (z : Z) :
  z <> 0 <-> exists i, 0 <= i /\ Z.testbit z i = true.
Proof.
  split.
  - intros Hz. destruct (Z.lt_trichotomy z 0) as [Hneg | [H0 | Hpos]].
    + exists (Z.log2 (Z.abs z) + 1). split.
      * pose proof (Z.log2_nonneg (Z.abs z)). lia.
      * apply Z.bits_iff_neg; lia.
    + contradiction.
    + exists (Z.log2 z). split.
      * apply Z.log2_nonneg.
      * now apply Z.bit_log2.
  - intros (i & _ & Hi) ->. rewrite Z.bits_0 in Hi. discriminate.
Qed.

Lemma land_neq0_iff_meet (x y : Z) :
  Z.land x y <> 0 <-> bits_meet x y.
Proof.
  rewrite neq0_iff_bit. unfold bits_meet.
  split; intros (i & Hi & H); exists i; split; try assumption.
  - rewrite Z.land_spec in H. now apply andb_true_iff in H.
  - rewrite Z.land_spec. now apply andb_true_iff.
Qed.

Lemma land_eq_iff_subset (x y : Z) :
  Z.land y x = x <-> bits_subset x y.
Proof.
  unfold bits_subset. split.
  - intros H i _ Hx. rewrite <- H in Hx. rewrite Z.land_spec in Hx.
    now apply andb_true_iff in Hx.
  - intros H. apply Z.bits_inj'. intros i Hi. rewrite Z.land_spec.
    specialize (H i Hi).
    destruct (Z.testbit x i); [rewrite H by reflexivity|]; auto using andb_false_r.
Qed.

Lemma negb_eqb_true_iff (z : Z) : negb (z =? 0) = true <-> z <> 0.
Proof.
  rewrite negb_true_iff. apply Z.eqb_neq.
Qed.

Lemma negb_eqb_false_iff (z : Z) : negb (z =? 0) = false <-> z = 0.
Proof.
  rewrite negb_false_iff. apply Z.eqb_eq.
Qed.

Lemma land_pow2_neq0 (x k : Z) :
  0 <= k -> (Z.land x (2 ^ k) <> 0 <-> Z.testbit x k = true).
Proof.
  intros Hk. rewrite land_neq0_iff_meet. split.
  - intros (i & _ & Hx & Hi). rewrite Z.pow2_bits_eqb in Hi by assumption.
    apply Z.eqb_eq in Hi. now subst i.
  - intros Hx. exists k. repeat split; try assumption.
    rewrite Z.pow2_bits_eqb by assumption. apply Z.eqb_refl.
Qed.

Lemma pow2_subset_iff (x k : Z) :
  0 <= k -> (bits_subset (2 ^ k) x <-> Z.testbit x k = true).
Proof.
  intros Hk. unfold bits_subset. split.
  - intros H. apply (H k Hk). rewrite Z.pow2_bits_eqb by assumption. apply Z.eqb_refl.
  - intros Hx i _ Hi. rewrite Z.pow2_bits_eqb in Hi by assumption.
    apply Z.eqb_eq in Hi. now subst i.
Qed.

Section Properties.

Variable digits : Z.

Lemma testbit_above (x i : Z) :
  RawType_ok digits x -> digits <= i -> Z.testbit x i = false.
Proof.
  intros Hx Hi. unfold RawType_ok in Hx.
  assert (0 <= digits).
  { destruct (Z.le_gt_cases 0 digits); [assumption|].
    rewrite Z.pow_neg_r in Hx by assumption. lia. }
  rewrite <- (Z.mod_small x (2 ^ digits)) by assumption.
  apply Z.mod_pow2_bits_high. lia.
Qed.

Lemma testbit_RawType_not (x i : Z) :
  0 <= digits -> 0 <= i ->
  Z.testbit (RawType_not digits x) i = (i <? digits) && negb (Z.testbit x i).
Proof.
  intros Hd Hi. unfold RawType_not, static_cast_RawType.
  rewrite Z.testbit_mod_pow2 by assumption.
  now rewrite Z.lnot_spec by assumption.
Qed.

Lemma RawType_ok_digits (x : Z) : RawType_ok digits x -> 0 <= digits.
Proof.
  unfold RawType_ok. intros Hx.
  destruct (Z.le_gt_cases 0 digits); [assumption|].
  rewrite Z.pow_neg_r in Hx by assumption. lia.
Qed.

Lemma CreateFlag_in_range (shift : N) :
  Z.of_N shift < digits -> CreateFlag digits shift = Some (2 ^ Z.of_N shift).
Proof.
  intros Hs. unfold CreateFlag.
  replace (Z.of_N shift <? Z.max digits int_digits) with true
    by (symmetry; apply Z.ltb_lt; lia).
  f_equal. unfold static_cast_RawType. rewrite Z.shiftl_1_l.
  apply Z.mod_small. split.
  - apply Z.pow_nonneg. lia.
  - apply Z.pow_lt_mono_r; lia.
Qed.

Lemma is_flag_pow2 (flag : Enum) :
  is_flag digits flag ->
  exists k, 0 <= k < digits /\ to_underlying flag = 2 ^ k.
Proof.
  intros (shift & Hs & Hc). rewrite CreateFlag_in_range in Hc by assumption.
  exists (Z.of_N shift). split; [lia | congruence].
Qed.

(** *** Member functions that return [*this] *)

Lemma Add_returns_this (this flags : EnumFlags) :
  fst (Add this flags) = snd (Add this flags).
Proof. reflexivity. Qed.

Lemma Remove_returns_this (this flags : EnumFlags) :
  fst (Remove digits this flags) = snd (Remove digits this flags).
Proof. reflexivity. Qed.

Lemma Clear_returns_this (this : EnumFlags) : fst (Clear this) = snd (Clear this).
Proof. reflexivity. Qed.

(** *** Queries *)

Lemma Has_iff_bits_meet (this : EnumFlags) (flag : Enum) :
  Has this flag = true <-> bits_meet (flags_ this) (to_underlying flag).
Proof.
  unfold Has. rewrite negb_eqb_true_iff. apply land_neq0_iff_meet.
Qed.

Lemma Has_eq_HasAny (this : EnumFlags) (flag : Enum) :
  Has this flag = HasAny this (EnumFlags_of_Enum flag).
Proof. reflexivity. Qed.

Lemma Has_flag_testbit (this : EnumFlags) (flag : Enum) (k : Z) :
  0 <= k -> to_underlying flag = 2 ^ k ->
  (Has this flag = true <-> Z.testbit (flags_ this) k = true).
Proof.
  intros Hk Hv. unfold Has. rewrite Hv, negb_eqb_true_iff.
  now apply land_pow2_neq0.
Qed.

(** C1 (as amended).  [Has] tests [(flags_ & flag) != 0]: it returns true iff
    at least one bit set in the value is also set in the receiver; when the
    value is a single flag ([1 << k], [k] below the width) this is the same as
    every bit set in the value being set in the receiver. *)
Theorem Has_spec (this : EnumFlags) (flag : Enum) :
  (Has this flag = true <-> bits_meet (flags_ this) (to_underlying flag)) /\
  (is_flag digits flag ->
   (Has this flag = true <-> bits_subset (to_underlying flag) (flags_ this))).
Proof.
  split; [apply Has_iff_bits_meet|].
  intros Hf. destruct (is_flag_pow2 _ Hf) as (k & Hk & Hv).
  rewrite (Has_flag_testbit this flag k) by (lia || assumption).
  rewrite Hv. symmetry. apply pow2_subset_iff. lia.
Qed.

(** C4.  [HasAll] returns true iff every bit set in the argument is set in
    the receiver, that is iff [(receiver & arg) == arg]; an empty argument is
    contained in every receiver. *)
Theorem HasAll_iff (this flags : EnumFlags) :
  (HasAll this flags = true <-> bits_subset (flags_ flags) (flags_ this)) /\
  (HasAll this flags = true <-> Z.land (flags_ this) (flags_ flags) = flags_ flags) /\
  HasAll this EnumFlags_default = true /\
  HasAll this (EnumFlags_of_RawType 0) = true.
Proof.
  assert (Heq : HasAll this flags = true <->
                Z.land (flags_ this) (flags_ flags) = flags_ flags)
    by (unfold HasAll, operator_RawType; apply Z.eqb_eq).
  repeat split.
  - intros H. apply land_eq_iff_subset, Heq, H.
  - intros H. apply Heq, land_eq_iff_subset, H.
  - apply Heq.
  - apply Heq.
  - unfold HasAll. cbn. rewrite Z.land_0_r. reflexivity.
  - unfold HasAll. cbn. rewrite Z.land_0_r. reflexivity.
Qed.

(** C5.  [HasAny] with an argument returns true iff some bit set in the
    argument is set in the receiver, that is iff [(receiver & arg) != 0]; with
    an empty argument it returns false. *)
Theorem HasAny_iff (this flags : EnumFlags) :
  (HasAny this flags = true <-> bits_meet (flags_ flags) (flags_ this)) /\
  (HasAny this flags = true <-> Z.land (flags_ this) (flags_ flags) <> 0) /\
  HasAny this EnumFlags_default = false /\
  HasAny this (EnumFlags_of_RawType 0) = false.
Proof.
  assert (Hne : HasAny this flags = true <->
                Z.land (flags_ this) (flags_ flags) <> 0)
    by (unfold HasAny, operator_RawType; apply negb_eqb_true_iff).
  repeat split.
  - intros H. apply Hne in H. rewrite Z.land_comm in H.
    now apply land_neq0_iff_meet.
  - intros H. apply Hne. rewrite Z.land_comm. now apply land_neq0_iff_meet.
  - apply Hne.
  - apply Hne.
  - unfold HasAny. cbn. rewrite Z.land_0_r. reflexivity.
  - unfold HasAny. cbn. rewrite Z.land_0_r. reflexivity.
Qed.

(** *** Construction and conversion *)

(** C8.  For a shift below the width of the underlying type, [CreateFlag]
    yields [1 << shift], which is [2 ^ shift] and a value of that type. *)
Theorem CreateFlag_shift (shift : N) :
  Z.of_N shift < digits ->
  CreateFlag digits shift = Some (Z.shiftl 1 (Z.of_N shift)) /\
  Z.shiftl 1 (Z.of_N shift) = 2 ^ Z.of_N shift /\
  RawType_ok digits (Z.shiftl 1 (Z.of_N shift)).
Proof.
  intros Hs. rewrite Z.shiftl_1_l. repeat split.
  - now apply CreateFlag_in_range.
  - apply Z.pow_nonneg. lia.
  - apply Z.pow_lt_mono_r; lia.
Qed.

(** C9.  A flag set built from a raw value converts back to that raw value,
    and a default-constructed one converts to [0]. *)
Theorem RawType_round_trip (r : RawType) :
  operator_RawType (EnumFlags_of_RawType r) = r /\
  operator_RawType EnumFlags_default = 0.
Proof.
  split; reflexivity.
Qed.

(** *** Mutators *)

(** C2.  [operator&=] overwrites the raw value of the receiver with that of
    the argument and returns the receiver; from [{A, B}], resetting to
    [{C, D}] gives exactly [{C, D}]. *)
Theorem operator_and_assign_overwrites (this flags : EnumFlags) :
  flags_ (snd (operator_and_assign this flags)) = flags_ flags /\
  fst (operator_and_assign this flags) = snd (operator_and_assign this flags) /\
  snd (operator_and_assign (EnumFlags_of_initializer_list [Opt.A; Opt.B])
                           (EnumFlags_of_initializer_list [Opt.C; Opt.D]))
  = EnumFlags_of_initializer_list [Opt.C; Opt.D].
Proof.
  repeat split.
Qed.

Lemma Remove_testbit (this flags : EnumFlags) (i : Z) :
  0 <= digits -> 0 <= i ->
  Z.testbit (flags_ (fst (Remove digits this flags))) i
  = Z.testbit (flags_ this) i && ((i <? digits) && negb (Z.testbit (flags_ flags) i)).
Proof.
  intros Hd Hi. cbn. rewrite Z.land_spec.
  now rewrite testbit_RawType_not by assumption.
Qed.

Lemma Remove_HasAny (this flags : EnumFlags) :
  0 <= digits -> HasAny (fst (Remove digits this flags)) flags = false.
Proof.
  intros Hd. unfold HasAny. apply negb_eqb_false_iff.
  apply Z.bits_inj'. intros i Hi.
  rewrite Z.land_spec, Remove_testbit, Z.bits_0 by assumption.
  unfold operator_RawType.
  destruct (Z.testbit (flags_ flags) i);
    rewrite ?andb_false_r; reflexivity.
Qed.

Lemma Remove_disjoint_unchanged (this flags : EnumFlags) :
  EnumFlags_ok digits this ->
  Z.land (flags_ this) (flags_ flags) = 0 ->
  Remove digits this flags = (this, this).
Proof.
  intros Hok Hdisj.
  assert (Hd : 0 <= digits) by (eapply RawType_ok_digits; exact Hok).
  assert (Heq : fst (Remove digits this flags) = this).
  { destruct this as [r]. cbn [fst Remove]. f_equal. cbn [flags_] in *.
    apply Z.bits_inj'. intros i Hi.
    rewrite Z.land_spec, testbit_RawType_not by assumption.
    unfold operator_RawType.
    assert (Hbit : Z.testbit r i && Z.testbit (flags_ flags) i = false)
      by (rewrite <- Z.land_spec, Hdisj; apply Z.bits_0).
    destruct (Z.ltb_spec i digits) as [Hlt | Hge].
    - destruct (Z.testbit r i), (Z.testbit (flags_ flags) i);
        cbn in *; congruence.
    - rewrite (testbit_above r i Hok Hge). reflexivity. }
  rewrite (surjective_pairing (Remove digits this flags)).
  rewrite <- Remove_returns_this, Heq. reflexivity.
Qed.

Lemma Remove_keeps_other_bits (this flags : EnumFlags) (i : Z) :
  EnumFlags_ok digits this -> 0 <= i -> Z.testbit (flags_ flags) i = false ->
  Z.testbit (flags_ (fst (Remove digits this flags))) i = Z.testbit (flags_ this) i.
Proof.
  intros Hok Hi Hg.
  assert (Hd : 0 <= digits) by (eapply RawType_ok_digits; exact Hok).
  rewrite Remove_testbit, Hg by assumption. cbn [negb].
  rewrite andb_true_r.
  destruct (Z.ltb_spec i digits) as [Hlt | Hge].
  - apply andb_true_r.
  - rewrite (testbit_above _ i Hok Hge). reflexivity.
Qed.

(** C10.  After [Remove] the receiver shares no bit with the argument, and
    every bit that is not set in the argument keeps its value; the same holds
    of the reference the call returns, which is the receiver. *)
Theorem Remove_disjoins (this flags : EnumFlags) :
  EnumFlags_ok digits this ->
  HasAny (snd (Remove digits this flags)) flags = false /\
  (forall i, 0 <= i -> Z.testbit (flags_ flags) i = false ->
     Z.testbit (flags_ (snd (Remove digits this flags))) i
     = Z.testbit (flags_ this) i) /\
  HasAny (fst (Remove digits this flags)) flags = false /\
  (forall i, 0 <= i -> Z.testbit (flags_ flags) i = false ->
     Z.testbit (flags_ (fst (Remove digits this flags))) i
     = Z.testbit (flags_ this) i).
Proof.
  intros Hok.
  assert (Hd : 0 <= digits) by (eapply RawType_ok_digits; exact Hok).
  assert (Hnone : HasAny (fst (Remove digits this flags)) flags = false)
    by now apply Remove_HasAny.
  assert (Hkept : forall i, 0 <= i -> Z.testbit (flags_ flags) i = false ->
            Z.testbit (flags_ (fst (Remove digits this flags))) i
            = Z.testbit (flags_ this) i)
    by (intros i; now apply Remove_keeps_other_bits).
  split; [rewrite <- Remove_returns_this; exact Hnone|].
  split; [rewrite <- Remove_returns_this; exact Hkept|].
  split; [exact Hnone | exact Hkept].
Qed.

Lemma Add_flags_ (this flags : EnumFlags) :
  flags_ (fst (Add this flags)) = Z.lor (flags_ this) (flags_ flags).
Proof. reflexivity. Qed.

Lemma Add_Has_flag (this : EnumFlags) (flag : Enum) :
  is_flag digits flag ->
  Has (fst (Add this (EnumFlags_of_Enum flag))) flag = true.
Proof.
  intros Hf. destruct (is_flag_pow2 _ Hf) as (k & Hk & Hv).
  apply (Has_flag_testbit _ flag k); [lia | assumption |].
  rewrite Add_flags_, Z.lor_spec. cbn [EnumFlags_of_Enum flags_].
  rewrite Hv, Z.pow2_bits_eqb, Z.eqb_refl by lia. apply orb_true_r.
Qed.

(** C6.  After [Add] of a flag, [Has] of it is true, on the receiver and on
    the reference the call returns; after [Add] then [Remove] of it, [Has] of
    it is false, again on both; and [Remove] of a flag that [Has] denies
    leaves the flag set as it was. *)
Theorem Add_Remove_Has (this : EnumFlags) (flag : Enum) :
  EnumFlags_ok digits this -> is_flag digits flag ->
  Has (snd (Add this (EnumFlags_of_Enum flag))) flag = true /\
  Has (fst (Add this (EnumFlags_of_Enum flag))) flag = true /\
  Has (snd (Remove digits (snd (Add this (EnumFlags_of_Enum flag)))
                   (EnumFlags_of_Enum flag))) flag = false /\
  Has (fst (Remove digits (fst (Add this (EnumFlags_of_Enum flag)))
                   (EnumFlags_of_Enum flag))) flag = false /\
  (Has this flag = false ->
   Remove digits this (EnumFlags_of_Enum flag) = (this, this)).
Proof.
  intros Hok Hf.
  assert (Hd : 0 <= digits) by (eapply RawType_ok_digits; exact Hok).
  assert (Hadd : Has (fst (Add this (EnumFlags_of_Enum flag))) flag = true)
    by now apply Add_Has_flag.
  assert (Hrem : Has (fst (Remove digits (fst (Add this (EnumFlags_of_Enum flag)))
                                  (EnumFlags_of_Enum flag))) flag = false)
    by (rewrite Has_eq_HasAny; now apply Remove_HasAny).
  split; [rewrite <- Add_returns_this; exact Hadd|].
  split; [exact Hadd|].
  split; [rewrite <- Remove_returns_this, <- Add_returns_this; exact Hrem|].
  split; [exact Hrem|].
  intros Hno. apply Remove_disjoint_unchanged; [assumption|].
  unfold Has in Hno. now apply negb_eqb_false_iff in Hno.
Qed.

(** C7.  [operator|] returns a flag set whose raw value is the bitwise OR of
    the two raw values and leaves the receiver as it was; with a flag as the
    argument, the result has the flag and the receiver answers [Has] as
    before. *)
Theorem operator_or_pure (this flags : EnumFlags) (flag : Enum) :
  is_flag digits flag ->
  flags_ (fst (operator_or this flags)) = Z.lor (flags_ this) (flags_ flags) /\
  snd (operator_or this flags) = this /\
  Has (fst (operator_or this (EnumFlags_of_Enum flag))) flag = true /\
  Has (snd (operator_or this (EnumFlags_of_Enum flag))) flag = Has this flag.
Proof.
  intros Hf. repeat split.
  unfold operator_or, EnumFlags_copy.
  destruct this as [r]. cbn [flags_]. now apply Add_Has_flag.
Qed.

(** *** Construction from a collection *)

Lemma EnumFlags_eq (a b : EnumFlags) : flags_ a = flags_ b -> a = b.
Proof.
  destruct a, b. cbn. now intros ->.
Qed.

Lemma Enum_eq (a b : Enum) : to_underlying a = to_underlying b -> a = b.
Proof.
  destruct a, b. cbn. now intros ->.
Qed.

Lemma AddFlags_flags_ (flags : list Enum) (this : EnumFlags) :
  flags_ (snd (AddFlags this flags)) = Z.lor (flags_ this) (bitwise_union flags).
Proof.
  unfold AddFlags. cbn [snd]. revert this.
  induction flags as [| flag flags IH]; intros this; cbn [fold_left bitwise_union fold_right].
  - now rewrite Z.lor_0_r.
  - rewrite IH. cbn. now rewrite Z.lor_assoc.
Qed.

Lemma EnumFlags_of_range_flags_ (flags : list Enum) :
  flags_ (EnumFlags_of_range flags) = bitwise_union flags.
Proof.
  unfold EnumFlags_of_range. now rewrite AddFlags_flags_.
Qed.

Lemma bitwise_union_testbit (flags : list Enum) (i : Z) :
  Z.testbit (bitwise_union flags) i
  = existsb (fun flag => Z.testbit (to_underlying flag) i) flags.
Proof.
  induction flags as [| flag flags IH]; cbn [bitwise_union fold_right existsb].
  - apply Z.bits_0.
  - rewrite Z.lor_spec. fold (bitwise_union flags). now rewrite IH.
Qed.

Lemma bitwise_union_same_elements (flags flags' : list Enum) :
  (forall flag, In flag flags <-> In flag flags') ->
  bitwise_union flags = bitwise_union flags'.
Proof.
  intros Hsame. apply Z.bits_inj'. intros i _.
  rewrite !bitwise_union_testbit. apply eq_true_iff_eq.
  rewrite !existsb_exists.
  split; intros (flag & Hin & Hbit); exists flag; split;
    try assumption; now apply Hsame.
Qed.

Lemma EnumFlags_of_range_same_elements (flags flags' : list Enum) :
  (forall flag, In flag flags <-> In flag flags') ->
  EnumFlags_of_range flags' = EnumFlags_of_range flags.
Proof.
  intros Hsame. apply EnumFlags_eq. rewrite !EnumFlags_of_range_flags_.
  symmetry. now apply bitwise_union_same_elements.
Qed.

Lemma EnumFlags_of_range_Has (flags : list Enum) (flag : Enum) :
  Forall (is_flag digits) flags -> is_flag digits flag ->
  (Has (EnumFlags_of_range flags) flag = true <-> In flag flags).
Proof.
  intros Hall Hf. destruct (is_flag_pow2 _ Hf) as (k & Hk & Hv).
  rewrite (Has_flag_testbit _ flag k) by (lia || assumption).
  rewrite EnumFlags_of_range_flags_, bitwise_union_testbit, existsb_exists.
  split.
  - intros (other & Hin & Hbit).
    rewrite Forall_forall in Hall.
    destruct (is_flag_pow2 _ (Hall other Hin)) as (j & Hj & Hw).
    rewrite Hw, Z.pow2_bits_eqb in Hbit by lia.
    apply Z.eqb_eq in Hbit. subst j.
    replace flag with other; [assumption|]. apply Enum_eq. congruence.
  - intros Hin. exists flag. split; [assumption|].
    rewrite Hv, Z.pow2_bits_eqb by lia. apply Z.eqb_refl.
Qed.

(** C3.  A flag set built from a collection of flags, through either
    constructor, holds the bitwise union of their values: [Has] of a flag is
    true iff the flag is in the collection, a reordering builds the same flag
    set, and so does any collection with the same elements, whatever their
    repetitions. *)
Theorem EnumFlags_of_collection (flags : list Enum) (flag : Enum) :
  Forall (is_flag digits) flags -> is_flag digits flag ->
  EnumFlags_of_initializer_list flags = EnumFlags_of_range flags /\
  flags_ (EnumFlags_of_range flags) = bitwise_union flags /\
  (Has (EnumFlags_of_range flags) flag = true <-> In flag flags) /\
  (forall flags', Permutation flags flags' ->
     EnumFlags_of_range flags' = EnumFlags_of_range flags) /\
  (forall flags', (forall x, In x flags <-> In x flags') ->
     EnumFlags_of_range flags' = EnumFlags_of_range flags) /\
  (forall x, In x flags ->
     EnumFlags_of_range (x :: flags) = EnumFlags_of_range flags).
Proof.
  intros Hall Hf.
  split; [reflexivity|].
  split; [apply EnumFlags_of_range_flags_|].
  split; [now apply EnumFlags_of_range_Has|].
  split; [|split].
  - intros flags' Hperm. apply EnumFlags_of_range_same_elements.
    intros x. split; apply Permutation_in;
      [assumption | now apply Permutation_sym].
  - apply EnumFlags_of_range_same_elements.
  - intros x Hin. apply EnumFlags_of_range_same_elements.
    intros y. cbn [In]. split; [auto|].
    intros [<- | Hy]; assumption.
Qed.

End Properties.

(** ** The unit tests, on [Opt] *)

Module OptTests.

Import Opt.

Ltac minted_by shift := exists shift; split; reflexivity.

Lemma enumerators_are_flags :
  Forall (is_flag digits) [A; B; C; D; E].
Proof.
  repeat constructor;
    [minted_by 0%N | minted_by 1%N | minted_by 2%N | minted_by 3%N | minted_by 4%N].
Qed.

(** [TEST(EnumFlags, CheckIfFlagsExist)] *)
Example CheckIfFlagsExist :
  let flags := EnumFlags_of_initializer_list [A; B; C] in
  operator_and_Enum flags A = true /\
  operator_and_Enum flags B = true /\
  operator_and_Enum flags D = false /\
  HasAny flags (EnumFlags_of_initializer_list [A; D]) = true /\
  HasAny flags (EnumFlags_of_initializer_list [D; E]) = false /\
  HasAll flags (EnumFlags_of_initializer_list [A; B]) = true /\
  operator_and flags (EnumFlags_of_initializer_list [A; B]) = true /\
  HasAll flags (EnumFlags_of_initializer_list [C; D]) = false /\
  operator_and flags (EnumFlags_of_initializer_list [C; D]) = false.
Proof. repeat split. Qed.

(** [TEST(EnumFlags, AddFlags)] *)
Example AddFlags_test :
  let flags0 := EnumFlags_default in
  let flags1 := snd (operator_or_assign flags0 (EnumFlags_of_Enum A)) in
  let flags2 := snd (operator_or_assign flags1 (EnumFlags_of_initializer_list [B; C])) in
  let (new_flags, flags3) := operator_or flags2 (EnumFlags_of_Enum D) in
  operator_and_Enum flags0 A = false /\
  operator_and_Enum flags1 A = true /\
  operator_and_Enum flags1 B = false /\
  operator_and_Enum flags1 C = false /\
  operator_and_Enum flags2 B = true /\
  operator_and_Enum flags2 C = true /\
  operator_and_Enum new_flags D = true /\
  operator_and_Enum flags3 D = false.
Proof. repeat split. Qed.

(** [TEST(EnumFlags, ClearFlags)] *)
Example ClearFlags :
  let flags := EnumFlags_of_initializer_list [A; B] in
  let flags' := snd (Clear flags) in
  HasAny_none flags = true /\
  operator_and_Enum flags' A = false /\
  operator_and_Enum flags' B = false /\
  HasAny_none flags' = false.
Proof. repeat split. Qed.

(** [TEST(EnumFlags, RemoveFlags)] *)
Example RemoveFlags :
  let flags := EnumFlags_of_initializer_list [A; B; C] in
  let flags1 := snd (Remove digits flags (EnumFlags_of_Enum C)) in
  let flags2 := snd (Remove digits flags1 (EnumFlags_of_initializer_list [A; B])) in
  operator_and_Enum flags C = true /\
  operator_and_Enum flags1 C = false /\
  operator_and_Enum flags1 A = true /\
  operator_and_Enum flags1 B = true /\
  operator_and_Enum flags2 A = false /\
  operator_and_Enum flags2 B = false.
Proof. repeat split. Qed.

(** [TEST(EnumFlags, SwapFlags)] and [TEST(EnumFlags, Comparison)] *)
Example SwapFlags_Comparison :
  let (flags1, flags2) :=
    swap (EnumFlags_of_initializer_list [A; B]) (EnumFlags_of_initializer_list [C; D]) in
  flags1 = EnumFlags_of_initializer_list [C; D] /\
  flags2 = EnumFlags_of_initializer_list [A; B] /\
  operator_eq (EnumFlags_of_initializer_list [A; B])
              (EnumFlags_of_range [B; A]) = true /\
  operator_eq (EnumFlags_of_initializer_list [A; B])
              (EnumFlags_of_initializer_list [A; C]) = false.
Proof. repeat split. Qed.

(** *** [Has] on a value that is not a single flag

    C1, as first stated, asks of [Has] that every bit of the value be set in
    the receiver.  On the receiver [{A}] and the value [A | B] ([3], a value
    of [Opt]) [Has] answers true although [B] is not set; on the zero value
    it answers false although no bit is missing. *)
Lemma Has_multi_bit_counterexample :
  Enum_ok digits (static_cast_Enum 3) /\
  Has (EnumFlags_of_Enum A) (static_cast_Enum 3) = true /\
  ~ bits_subset (to_underlying (static_cast_Enum 3)) (flags_ (EnumFlags_of_Enum A)) /\
  Has (EnumFlags_of_Enum A) (static_cast_Enum 0) = false /\
  bits_subset (to_underlying (static_cast_Enum 0)) (flags_ (EnumFlags_of_Enum A)).
Proof.
  split; [unfold Enum_ok, RawType_ok, digits; cbn; lia|].
  split; [reflexivity|]. split; [|split; [reflexivity|]].
  - intros H. specialize (H 1 ltac:(lia) eq_refl). discriminate H.
  - intros i _ Hi. cbn in Hi. rewrite Z.bits_0 in Hi. discriminate Hi.
Qed.

(** *** Instances of the conditional properties *)

Lemma Has_spec_witness :
  is_flag digits B /\
  (Has (EnumFlags_of_initializer_list [A; B]) B = true <->
   bits_subset (to_underlying B) (flags_ (EnumFlags_of_initializer_list [A; B]))).
Proof.
  split; [minted_by 1%N|].
  apply (proj2 (Has_spec digits (EnumFlags_of_initializer_list [A; B]) B)).
  minted_by 1%N.
Defined.

Lemma CreateFlag_shift_witness :
  Z.of_N 4 < digits /\
  CreateFlag digits 4 = Some (Z.shiftl 1 (Z.of_N 4)) /\
  Z.shiftl 1 (Z.of_N 4) = 2 ^ Z.of_N 4 /\
  RawType_ok digits (Z.shiftl 1 (Z.of_N 4)).
Proof.
  split; [reflexivity|]. apply (CreateFlag_shift digits 4). reflexivity.
Defined.

Lemma Remove_disjoins_witness :
  EnumFlags_ok digits (EnumFlags_of_initializer_list [A; B; C]) /\
  HasAny (snd (Remove digits (EnumFlags_of_initializer_list [A; B; C])
                      (EnumFlags_of_initializer_list [C; D])))
         (EnumFlags_of_initializer_list [C; D]) = false /\
  (forall i, 0 <= i ->
     Z.testbit (flags_ (EnumFlags_of_initializer_list [C; D])) i = false ->
     Z.testbit (flags_ (snd (Remove digits (EnumFlags_of_initializer_list [A; B; C])
                                    (EnumFlags_of_initializer_list [C; D])))) i
     = Z.testbit (flags_ (EnumFlags_of_initializer_list [A; B; C])) i) /\
  HasAny (fst (Remove digits (EnumFlags_of_initializer_list [A; B; C])
                      (EnumFlags_of_initializer_list [C; D])))
         (EnumFlags_of_initializer_list [C; D]) = false /\
  (forall i, 0 <= i ->
     Z.testbit (flags_ (EnumFlags_of_initializer_list [C; D])) i = false ->
     Z.testbit (flags_ (fst (Remove digits (EnumFlags_of_initializer_list [A; B; C])
                                    (EnumFlags_of_initializer_list [C; D])))) i
     = Z.testbit (flags_ (EnumFlags_of_initializer_list [A; B; C])) i).
Proof.
  assert (Hok : EnumFlags_ok digits (EnumFlags_of_initializer_list [A; B; C]))
    by (unfold EnumFlags_ok, RawType_ok, digits; cbn; lia).
  split; [exact Hok|].
  exact (Remove_disjoins digits (EnumFlags_of_initializer_list [A; B; C])
                         (EnumFlags_of_initializer_list [C; D]) Hok).
Defined.

Lemma Add_Remove_Has_witness :
  EnumFlags_ok digits (EnumFlags_of_initializer_list [A; B]) /\
  is_flag digits C /\
  Has (snd (Add (EnumFlags_of_initializer_list [A; B]) (EnumFlags_of_Enum C))) C = true /\
  Has (fst (Add (EnumFlags_of_initializer_list [A; B]) (EnumFlags_of_Enum C))) C = true /\
  Has (snd (Remove digits
              (snd (Add (EnumFlags_of_initializer_list [A; B]) (EnumFlags_of_Enum C)))
              (EnumFlags_of_Enum C))) C = false /\
  Has (fst (Remove digits
              (fst (Add (EnumFlags_of_initializer_list [A; B]) (EnumFlags_of_Enum C)))
              (EnumFlags_of_Enum C))) C = false /\
  (Has (EnumFlags_of_initializer_list [A; B]) C = false ->
   Remove digits (EnumFlags_of_initializer_list [A; B]) (EnumFlags_of_Enum C)
   = (EnumFlags_of_initializer_list [A; B], EnumFlags_of_initializer_list [A; B])).
Proof.
  assert (Hok : EnumFlags_ok digits (EnumFlags_of_initializer_list [A; B]))
    by (unfold EnumFlags_ok, RawType_ok, digits; cbn; lia).
  assert (Hf : is_flag digits C) by minted_by 2%N.
  split; [exact Hok|]. split; [exact Hf|].
  exact (Add_Remove_Has digits (EnumFlags_of_initializer_list [A; B]) C Hok Hf).
Defined.

Lemma operator_or_pure_witness :
  is_flag digits D /\
  flags_ (fst (operator_or (EnumFlags_of_initializer_list [A; B; C])
                           (EnumFlags_of_initializer_list [D; E])))
  = Z.lor (flags_ (EnumFlags_of_initializer_list [A; B; C]))
          (flags_ (EnumFlags_of_initializer_list [D; E])) /\
  snd (operator_or (EnumFlags_of_initializer_list [A; B; C])
                   (EnumFlags_of_initializer_list [D; E]))
  = EnumFlags_of_initializer_list [A; B; C] /\
  Has (fst (operator_or (EnumFlags_of_initializer_list [A; B; C])
                        (EnumFlags_of_Enum D))) D = true /\
  Has (snd (operator_or (EnumFlags_of_initializer_list [A; B; C])
                        (EnumFlags_of_Enum D))) D
  = Has (EnumFlags_of_initializer_list [A; B; C]) D.
Proof.
  assert (Hf : is_flag digits D) by minted_by 3%N.
  split; [exact Hf|].
  exact (operator_or_pure digits (EnumFlags_of_initializer_list [A; B; C])
                          (EnumFlags_of_initializer_list [D; E]) D Hf).
Defined.

Lemma EnumFlags_of_collection_witness :
  Forall (is_flag digits) [B; A; B] /\
  is_flag digits A /\
  EnumFlags_of_initializer_list [B; A; B] = EnumFlags_of_range [B; A; B] /\
  flags_ (EnumFlags_of_range [B; A; B]) = bitwise_union [B; A; B] /\
  (Has (EnumFlags_of_range [B; A; B]) A = true <-> In A [B; A; B]) /\
  (forall flags', Permutation [B; A; B] flags' ->
     EnumFlags_of_range flags' = EnumFlags_of_range [B; A; B]) /\
  (forall flags', (forall x, In x [B; A; B] <-> In x flags') ->
     EnumFlags_of_range flags' = EnumFlags_of_range [B; A; B]) /\
  (forall x, In x [B; A; B] ->
     EnumFlags_of_range (x :: [B; A; B]) = EnumFlags_of_range [B; A; B]).
Proof.
  assert (Hall : Forall (is_flag digits) [B; A; B])
    by (repeat constructor; [minted_by 1%N | minted_by 0%N | minted_by 1%N]).
  assert (Hf : is_flag digits A) by minted_by 0%N.
  split; [exact Hall|]. split; [exact Hf|].
  exact (EnumFlags_of_collection digits [B; A; B] A Hall Hf).
Defined.

End OptTests.

(** ** Further properties of the class *)

(** Equalities of raw values, bit by bit. *)
Ltac by_bits digits :=
  unfold operator_RawType, EnumFlags_copy; cbn [flags_];
  apply Z.bits_inj'; intros ?i ?Hi;
  repeat first
    [ rewrite Z.land_spec | rewrite Z.lor_spec | rewrite Z.bits_0
    | rewrite (testbit_RawType_not digits) by assumption ];
  repeat match goal with
         | |- context [Z.testbit ?x ?i] => destruct (Z.testbit x i)
         | |- context [?i <? ?d] => destruct (i <? d)
         end;
  reflexivity.

Section Algebra.

Variable digits : Z.

Lemma RawType_ok_of_bits (x : Z) :
  0 <= digits ->
  (forall i, digits <= i -> Z.testbit x i = false) ->
  RawType_ok digits x.
Proof.
  intros Hd Hhigh. unfold RawType_ok.
  replace x with (x mod 2 ^ digits).
  - apply Z.mod_pos_bound. now apply Z.pow_pos_nonneg.
  - apply Z.bits_inj'. intros i Hi. rewrite Z.testbit_mod_pow2 by assumption.
    destruct (Z.ltb_spec i digits) as [Hlt | Hge]; [reflexivity|].
    now rewrite Hhigh.
Qed.

Lemma lor_RawType_ok (x y : Z) :
  RawType_ok digits x -> RawType_ok digits y -> RawType_ok digits (Z.lor x y).
Proof.
  intros Hx Hy. apply RawType_ok_of_bits; [eapply RawType_ok_digits; exact Hx|].
  intros i Hi. rewrite Z.lor_spec.
  now rewrite (testbit_above digits x i), (testbit_above digits y i).
Qed.

Lemma land_RawType_ok (x y : Z) :
  RawType_ok digits x -> RawType_ok digits (Z.land x y).
Proof.
  intros Hx. apply RawType_ok_of_bits; [eapply RawType_ok_digits; exact Hx|].
  intros i Hi. rewrite Z.land_spec.
  now rewrite (testbit_above digits x i).
Qed.

Lemma zero_RawType_ok : 0 <= digits -> RawType_ok digits 0.
Proof.
  intros Hd. unfold RawType_ok. split; [lia | now apply Z.pow_pos_nonneg].
Qed.

Lemma pow2_is_flag (k : Z) :
  0 <= k < digits -> is_flag digits (static_cast_Enum (2 ^ k)).
Proof.
  intros Hk. exists (Z.to_N k). rewrite CreateFlag_in_range by lia.
  rewrite Z2N.id by lia. split; [lia | reflexivity].
Qed.

(** X1.  The mutators and [operator|] keep the raw value within the underlying
    type: from flag sets in range, [Add], [Remove], [Clear], [operator&=],
    [operator|=] and [operator|] give flag sets in range. *)
Theorem mutators_keep_range (this flags : EnumFlags) :
  EnumFlags_ok digits this -> EnumFlags_ok digits flags ->
  EnumFlags_ok digits (snd (Add this flags)) /\
  EnumFlags_ok digits (snd (Remove digits this flags)) /\
  EnumFlags_ok digits (snd (Clear this)) /\
  EnumFlags_ok digits (snd (operator_and_assign this flags)) /\
  EnumFlags_ok digits (snd (operator_or_assign this flags)) /\
  EnumFlags_ok digits (fst (operator_or this flags)).
Proof.
  intros Hthis Hflags. unfold EnumFlags_ok in *. cbn.
  assert (Hd : 0 <= digits) by (eapply RawType_ok_digits; exact Hthis).
  repeat split;
    try (apply lor_RawType_ok; assumption);
    try (apply land_RawType_ok; assumption);
    try (apply zero_RawType_ok; assumption);
    try (apply Hflags).
Qed.

(** X2.  A flag set built from values of the enumeration is in range: the
    collection constructors on values in range, the converting constructor on
    a value in range, and the default constructor. *)
Theorem constructors_in_range (flags : list Enum) (flag : Enum) :
  0 <= digits -> Forall (Enum_ok digits) flags -> Enum_ok digits flag ->
  EnumFlags_ok digits (EnumFlags_of_range flags) /\
  EnumFlags_ok digits (EnumFlags_of_initializer_list flags) /\
  EnumFlags_ok digits (EnumFlags_of_Enum flag) /\
  EnumFlags_ok digits EnumFlags_default.
Proof.
  intros Hd Hall Hflag.
  assert (Hrange : EnumFlags_ok digits (EnumFlags_of_range flags)).
  { unfold EnumFlags_ok. rewrite EnumFlags_of_range_flags_.
    induction Hall as [| x l Hx _ IH]; cbn.
    - now apply zero_RawType_ok.
    - apply lor_RawType_ok; assumption. }
  repeat split; try apply Hrange; try apply Hflag;
    apply zero_RawType_ok; assumption.
Qed.

Lemma other_flag_untouched_returned (this : EnumFlags) (flag other : Enum) :
  is_flag digits flag -> is_flag digits other -> flag <> other ->
  Has (fst (Add this (EnumFlags_of_Enum flag))) other = Has this other /\
  Has (fst (Remove digits this (EnumFlags_of_Enum flag))) other = Has this other.
Proof.
  intros Hf Ho Hne.
  destruct (is_flag_pow2 _ _ Hf) as (k & Hk & Hv).
  destruct (is_flag_pow2 _ _ Ho) as (j & Hj & Hw).
  assert (Hjk : j <> k).
  { intros ->. apply Hne, Enum_eq. congruence. }
  assert (Hbit : Z.testbit (2 ^ k) j = false).
  { rewrite Z.pow2_bits_eqb by lia. apply Z.eqb_neq. congruence. }
  split; apply eq_true_iff_eq;
    rewrite !(Has_flag_testbit _ other j) by (lia || assumption).
  - rewrite Add_flags_, Z.lor_spec. cbn [EnumFlags_of_Enum flags_].
    now rewrite Hv, Hbit, orb_false_r.
  - rewrite Remove_testbit by lia. cbn [EnumFlags_of_Enum flags_].
    rewrite Hv, Hbit. cbn [negb].
    replace (j <? digits) with true by (symmetry; apply Z.ltb_lt; lia).
    now rewrite !andb_true_r.
Qed.

(** X3.  [Add] and [Remove] of one flag leave the answer of [Has] for every
    other flag as it was, on the reference the call returns and on the
    receiver. *)
Theorem other_flag_untouched (this : EnumFlags) (flag other : Enum) :
  is_flag digits flag -> is_flag digits other -> flag <> other ->
  Has (fst (Add this (EnumFlags_of_Enum flag))) other = Has this other /\
  Has (fst (Remove digits this (EnumFlags_of_Enum flag))) other = Has this other /\
  Has (snd (Add this (EnumFlags_of_Enum flag))) other = Has this other /\
  Has (snd (Remove digits this (EnumFlags_of_Enum flag))) other = Has this other.
Proof.
  intros Hf Ho Hne.
  destruct (other_flag_untouched_returned this flag other Hf Ho Hne) as (Hadd & Hrem).
  split; [exact Hadd|]. split; [exact Hrem|].
  rewrite <- Add_returns_this, <- (Remove_returns_this digits).
  split; [exact Hadd | exact Hrem].
Qed.

Lemma Add_idempotent_commutes_returned (this flags flags' : EnumFlags) :
  fst (Add (fst (Add this flags)) flags) = fst (Add this flags) /\
  fst (Add (fst (Add this flags)) flags') = fst (Add (fst (Add this flags')) flags) /\
  HasAll (fst (Add this flags)) flags = true /\
  HasAll (fst (Add this flags)) this = true.
Proof.
  repeat split.
  - apply EnumFlags_eq. cbn. unfold operator_RawType.
    now rewrite <- Z.lor_assoc, Z.lor_diag.
  - apply EnumFlags_eq. cbn. unfold operator_RawType.
    rewrite <- !Z.lor_assoc. f_equal. apply Z.lor_comm.
  - unfold HasAll. cbn. unfold operator_RawType. apply Z.eqb_eq.
    by_bits digits.
  - unfold HasAll. cbn. unfold operator_RawType. apply Z.eqb_eq.
    by_bits digits.
Qed.

(** X4.  [Add] is idempotent and its order does not matter; afterwards the
    receiver contains both the argument and what it held before.  Each part
    holds of the receiver as the calls leave it and of the reference they
    return. *)
Theorem Add_idempotent_commutes (this flags flags' : EnumFlags) :
  snd (Add (snd (Add this flags)) flags) = snd (Add this flags) /\
  snd (Add (snd (Add this flags)) flags') = snd (Add (snd (Add this flags')) flags) /\
  HasAll (snd (Add this flags)) flags = true /\
  HasAll (snd (Add this flags)) this = true /\
  fst (Add (fst (Add this flags)) flags) = fst (Add this flags) /\
  fst (Add (fst (Add this flags)) flags') = fst (Add (fst (Add this flags')) flags) /\
  HasAll (fst (Add this flags)) flags = true /\
  HasAll (fst (Add this flags)) this = true.
Proof.
  destruct (Add_idempotent_commutes_returned this flags flags')
    as (Hidem & Hcomm & Hflags & Hthis).
  rewrite <- !Add_returns_this.
  repeat apply conj; assumption.
Qed.

Lemma Remove_flags_ (this flags : EnumFlags) :
  flags_ (fst (Remove digits this flags))
  = Z.land (flags_ this) (RawType_not digits (flags_ flags)).
Proof. reflexivity. Qed.

Lemma Remove_composes_returned (this flags flags' : EnumFlags) :
  0 <= digits ->
  fst (Remove digits (fst (Remove digits this flags)) flags)
  = fst (Remove digits this flags) /\
  fst (Remove digits (fst (Remove digits this flags)) flags')
  = fst (Remove digits this (fst (operator_or flags flags'))) /\
  fst (Remove digits (fst (Add this flags)) flags)
  = fst (Remove digits this flags).
Proof.
  intros Hd. repeat split; apply EnumFlags_eq;
    rewrite !Remove_flags_, ?Add_flags_; cbn [operator_or fst EnumFlags_copy];
    rewrite ?Add_flags_; cbn [flags_]; by_bits digits.
Qed.

(** X5.  Removals compose: removing the same flags twice is removing them
    once, removing two flag sets one after the other is removing their union,
    and removing flags that were just added is removing them from the flag
    set as it was before.  Each equation holds between the references the
    chains return and between the receivers as the chains leave them. *)
Theorem Remove_composes (this flags flags' : EnumFlags) :
  0 <= digits ->
  fst (Remove digits (fst (Remove digits this flags)) flags)
  = fst (Remove digits this flags) /\
  fst (Remove digits (fst (Remove digits this flags)) flags')
  = fst (Remove digits this (fst (operator_or flags flags'))) /\
  fst (Remove digits (fst (Add this flags)) flags)
  = fst (Remove digits this flags) /\
  snd (Remove digits (snd (Remove digits this flags)) flags)
  = snd (Remove digits this flags) /\
  snd (Remove digits (snd (Remove digits this flags)) flags')
  = snd (Remove digits this (fst (operator_or flags flags'))) /\
  snd (Remove digits (snd (Add this flags)) flags)
  = snd (Remove digits this flags).
Proof.
  intros Hd.
  destruct (Remove_composes_returned this flags flags' Hd) as (Htwice & Hunion & Hadded).
  rewrite <- !(Remove_returns_this digits), <- !Add_returns_this.
  repeat apply conj; assumption.
Qed.

Lemma Add_after_Remove_returned (this flags : EnumFlags) :
  EnumFlags_ok digits this ->
  fst (Add (fst (Remove digits this flags)) flags) = fst (Add this flags).
Proof.
  intros Hok.
  assert (Hd : 0 <= digits) by (eapply RawType_ok_digits; exact Hok).
  apply EnumFlags_eq. rewrite !Add_flags_, Remove_flags_.
  apply Z.bits_inj'. intros i Hi.
  rewrite !Z.lor_spec, Z.land_spec, testbit_RawType_not by assumption.
  destruct (Z.ltb_spec i digits) as [Hlt | Hge].
  - destruct (Z.testbit (flags_ this) i), (Z.testbit (flags_ flags) i); reflexivity.
  - now rewrite (testbit_above digits _ i Hok Hge).
Qed.

(** X6.  Adding flags back after removing them gives what adding them alone
    gives: the two chains return the same flag set and leave the same flag
    set in the receiver. *)
Theorem Add_after_Remove (this flags : EnumFlags) :
  EnumFlags_ok digits this ->
  fst (Add (fst (Remove digits this flags)) flags) = fst (Add this flags) /\
  snd (Add (snd (Remove digits this flags)) flags) = snd (Add this flags).
Proof.
  intros Hok. pose proof (Add_after_Remove_returned this flags Hok) as Heq.
  split; [exact Heq|].
  rewrite <- !Add_returns_this, <- (Remove_returns_this digits). exact Heq.
Qed.

(** X7.  Removing a flag set from itself clears it: [F.Remove(F)] leaves what
    [F.Clear()] leaves. *)
Theorem Remove_self_is_Clear (this : EnumFlags) :
  0 <= digits -> Remove digits this this = Clear this.
Proof.
  intros Hd.
  assert (Heq : fst (Remove digits this this) = fst (Clear this)).
  { apply EnumFlags_eq. rewrite Remove_flags_. cbn [Clear fst flags_].
    by_bits digits. }
  rewrite (surjective_pairing (Remove digits this this)).
  rewrite <- Remove_returns_this, Heq. reflexivity.
Qed.

Lemma HasAll_after_Remove_returned (this flags : EnumFlags) :
  0 <= digits ->
  HasAll (fst (Remove digits this flags)) flags = (flags_ flags =? 0).
Proof.
  intros Hd. unfold HasAll, operator_RawType. rewrite Remove_flags_.
  replace (Z.land (Z.land (flags_ this) (RawType_not digits (flags_ flags)))
                  (flags_ flags)) with 0 by (by_bits digits).
  apply Z.eqb_sym.
Qed.

(** X8.  After [Remove] the receiver contains all of the removed flags only
    when there were none to remove: [HasAll] of the argument, asked of the
    receiver or of the reference the call returns, is true iff the argument
    is empty. *)
Theorem HasAll_after_Remove (this flags : EnumFlags) :
  0 <= digits ->
  HasAll (snd (Remove digits this flags)) flags = (flags_ flags =? 0) /\
  HasAll (fst (Remove digits this flags)) flags = (flags_ flags =? 0).
Proof.
  intros Hd. pose proof (HasAll_after_Remove_returned this flags Hd) as Heq.
  split; [|exact Heq].
  rewrite <- (Remove_returns_this digits). exact Heq.
Qed.

(** X9.  [HasAll] orders flag sets by containment: it is reflexive,
    transitive and antisymmetric. *)
Theorem HasAll_partial_order (a b c : EnumFlags) :
  HasAll a a = true /\
  (HasAll a b = true -> HasAll b c = true -> HasAll a c = true) /\
  (HasAll a b = true -> HasAll b a = true -> a = b).
Proof.
  unfold HasAll, operator_RawType. repeat split.
  - apply Z.eqb_eq, Z.land_diag.
  - rewrite !Z.eqb_eq, !land_eq_iff_subset. unfold bits_subset.
    intros Hab Hbc i Hi Hci. auto.
  - rewrite !Z.eqb_eq. intros Hab Hba. apply EnumFlags_eq.
    transitivity (Z.land (flags_ a) (flags_ b)); [|exact Hab].
    symmetry. rewrite Z.land_comm. exact Hba.
Qed.

Lemma bitwise_union_subset (flags : list Enum) (x : Z) :
  bits_subset (bitwise_union flags) x <->
  (forall flag, In flag flags -> bits_subset (to_underlying flag) x).
Proof.
  unfold bits_subset. split.
  - intros H flag Hin i Hi Hbit. apply (H i Hi).
    rewrite bitwise_union_testbit. apply existsb_exists. now exists flag.
  - intros H i Hi Hbit. rewrite bitwise_union_testbit in Hbit.
    apply existsb_exists in Hbit. destruct Hbit as (flag & Hin & Hbit).
    now apply (H flag Hin i).
Qed.

(** X10.  [HasAll] of a flag set built from a collection of flags is true iff
    [Has] is true of every flag of the collection. *)
Theorem HasAll_of_range_iff (this : EnumFlags) (flags : list Enum) :
  Forall (is_flag digits) flags ->
  (HasAll this (EnumFlags_of_range flags) = true <->
   (forall flag, In flag flags -> Has this flag = true)).
Proof.
  intros Hall. rewrite Forall_forall in Hall.
  unfold HasAll, operator_RawType.
  rewrite Z.eqb_eq, land_eq_iff_subset, EnumFlags_of_range_flags_,
    bitwise_union_subset.
  split; intros H flag Hin; specialize (H flag Hin);
    destruct (is_flag_pow2 _ _ (Hall flag Hin)) as (k & Hk & Hv).
  - apply (Has_flag_testbit this flag k); [lia | assumption |].
    rewrite Hv in H. apply pow2_subset_iff in H; [assumption | lia].
  - apply (Has_flag_testbit this flag k) in H; [| lia | assumption].
    rewrite Hv. apply pow2_subset_iff; [lia | assumption].
Qed.

(** X11.  [HasAny] of a flag set built from a collection is true iff [Has] is
    true of some element of the collection. *)
Theorem HasAny_of_range_iff (this : EnumFlags) (flags : list Enum) :
  HasAny this (EnumFlags_of_range flags) = true <->
  exists flag, In flag flags /\ Has this flag = true.
Proof.
  unfold HasAny, operator_RawType.
  rewrite negb_eqb_true_iff, land_neq0_iff_meet, EnumFlags_of_range_flags_.
  unfold bits_meet. split.
  - intros (i & Hi & Hthis & Hbit). rewrite bitwise_union_testbit in Hbit.
    apply existsb_exists in Hbit. destruct Hbit as (flag & Hin & Hbit).
    exists flag. split; [assumption|].
    apply Has_iff_bits_meet. now exists i.
  - intros (flag & Hin & Hhas). apply Has_iff_bits_meet in Hhas.
    destruct Hhas as (i & Hi & Hthis & Hbit). exists i.
    repeat split; try assumption.
    rewrite bitwise_union_testbit. apply existsb_exists. now exists flag.
Qed.

(** X12.  On a flag the two overloads of [operator&] agree: [flags & flag]
    through [Has] and [flags & EnumFlags {flag}] through [HasAll] give the
    same answer. *)
Theorem operator_and_overloads_agree (this : EnumFlags) (flag : Enum) :
  is_flag digits flag ->
  operator_and_Enum this flag = operator_and this (EnumFlags_of_Enum flag).
Proof.
  intros Hf. destruct (is_flag_pow2 _ _ Hf) as (k & Hk & Hv).
  unfold operator_and_Enum, operator_and. apply eq_true_iff_eq.
  rewrite (Has_flag_testbit this flag k) by (lia || assumption).
  unfold HasAll, operator_RawType. cbn [EnumFlags_of_Enum flags_].
  rewrite Z.eqb_eq, land_eq_iff_subset, Hv. symmetry.
  apply pow2_subset_iff. lia.
Qed.

Lemma Has_eq_of_flags_ (a b : EnumFlags) (flag : Enum) :
  flags_ a = flags_ b -> Has a flag = Has b flag.
Proof.
  unfold Has. now intros ->.
Qed.

(** X13.  Two flag sets in range compare equal with [operator==] iff [Has]
    gives the same answer on them for every flag. *)
Theorem Has_extensionality (a b : EnumFlags) :
  EnumFlags_ok digits a -> EnumFlags_ok digits b ->
  ((forall flag, is_flag digits flag -> Has a flag = Has b flag) <->
   operator_eq a b = true).
Proof.
  intros Ha Hb. unfold operator_eq. rewrite Z.eqb_eq. split.
  - intros Hsame. apply Z.bits_inj'. intros i Hi.
    destruct (Z.lt_ge_cases i digits) as [Hlt | Hge].
    + pose proof (Hsame _ (pow2_is_flag i (conj Hi Hlt))) as Heq.
      apply eq_true_iff_eq.
      rewrite <- (Has_flag_testbit a (static_cast_Enum (2 ^ i)) i)
        by (assumption || reflexivity).
      rewrite <- (Has_flag_testbit b (static_cast_Enum (2 ^ i)) i)
        by (assumption || reflexivity).
      now rewrite Heq.
    + now rewrite (testbit_above digits _ i Ha Hge), (testbit_above digits _ i Hb Hge).
  - intros Heq flag _. now apply Has_eq_of_flags_.
Qed.

(** X14.  [HasAny()] without argument is true of a flag set in range iff
    [Has] is true of some flag. *)
Theorem HasAny_none_iff_some_flag (this : EnumFlags) :
  EnumFlags_ok digits this ->
  (HasAny_none this = true <->
   exists flag, is_flag digits flag /\ Has this flag = true).
Proof.
  intros Hok. unfold HasAny_none. rewrite negb_eqb_true_iff, neq0_iff_bit. split.
  - intros (i & Hi & Hbit).
    destruct (Z.lt_ge_cases i digits) as [Hlt | Hge].
    + exists (static_cast_Enum (2 ^ i)). split; [now apply pow2_is_flag|].
      now apply (Has_flag_testbit this _ i).
    + rewrite (testbit_above digits _ i Hok Hge) in Hbit. discriminate.
  - intros (flag & _ & Hhas). apply Has_iff_bits_meet in Hhas.
    destruct Hhas as (i & Hi & Hbit & _). now exists i.
Qed.

(** X15.  Below the width, [CreateFlag] gives a different value for each
    shift: two values are equal iff the shifts are, no value is zero, and
    values of different shifts share no bit. *)
Theorem CreateFlag_distinct (j k : N) (a b : RawType) :
  Z.of_N j < digits -> Z.of_N k < digits ->
  CreateFlag digits j = Some a -> CreateFlag digits k = Some b ->
  (a = b <-> j = k) /\ a <> 0 /\ (j <> k -> Z.land a b = 0).
Proof.
  intros Hj Hk Ha Hb.
  rewrite CreateFlag_in_range in Ha, Hb by assumption.
  injection Ha as <-. injection Hb as <-.
  repeat split.
  - intros Heq. apply N2Z.inj. apply (Z.pow_inj_r 2); lia.
  - now intros ->.
  - apply Z.pow_nonzero; lia.
  - intros Hne. apply Z.bits_inj'. intros i Hi.
    rewrite Z.land_spec, !Z.pow2_bits_eqb, Z.bits_0 by lia.
    destruct (Z.eqb_spec (Z.of_N j) i) as [<- | Hji]; [|reflexivity].
    cbn. apply Z.eqb_neq. intros Heq. apply Hne. now apply N2Z.inj.
Qed.

(** X16.  For an underlying type of more than one bit (every unsigned integer
    type but [bool], whose conversion is not the reduction modulo
    [2 ^ digits]), a shift by the width of the type or more mints no flag:
    whenever [CreateFlag] yields a value there, the value is [0]. *)
Theorem CreateFlag_beyond_width (shift : N) (x : RawType) :
  1 < digits -> digits <= Z.of_N shift ->
  CreateFlag digits shift = Some x -> x = 0.
Proof.
  intros Hd Hs. unfold CreateFlag.
  destruct (Z.of_N shift <? Z.max digits int_digits); [|discriminate].
  intros [= <-]. unfold static_cast_RawType. rewrite Z.shiftl_1_l.
  replace (Z.of_N shift) with ((Z.of_N shift - digits) + digits) by lia.
  rewrite Z.pow_add_r by lia. apply Z.mod_mul.
  apply Z.pow_nonzero; lia.
Qed.

Lemma bitwise_union_app (flags flags' : list Enum) :
  bitwise_union (flags ++ flags')
  = Z.lor (bitwise_union flags) (bitwise_union flags').
Proof.
  induction flags as [| flag flags IH]; cbn.
  - reflexivity.
  - fold (bitwise_union (flags ++ flags')). fold (bitwise_union flags).
    now rewrite IH, Z.lor_assoc.
Qed.

(** X17.  The collection constructor turns concatenation into [Add]: an empty
    collection gives the empty flag set, a single value gives what the
    converting constructor gives, a concatenation gives the [Add] of the two
    parts, and [AddFlags] on a flag set gives the [Add] of the constructed
    collection. *)
Theorem EnumFlags_of_range_app (this : EnumFlags) (flag : Enum) (flags flags' : list Enum) :
  EnumFlags_of_range [] = EnumFlags_default /\
  EnumFlags_of_range [flag] = EnumFlags_of_Enum flag /\
  EnumFlags_of_range (flags ++ flags')
  = fst (Add (EnumFlags_of_range flags) (EnumFlags_of_range flags')) /\
  snd (AddFlags this flags) = fst (Add this (EnumFlags_of_range flags)).
Proof.
  split; [reflexivity|]. split; [|split].
  - apply EnumFlags_eq. rewrite EnumFlags_of_range_flags_. cbn.
    apply Z.lor_0_r.
  - apply EnumFlags_eq.
    rewrite Add_flags_, !EnumFlags_of_range_flags_. apply bitwise_union_app.
  - apply EnumFlags_eq.
    now rewrite Add_flags_, AddFlags_flags_, EnumFlags_of_range_flags_.
Qed.

(** X18.  The non-member [swap] exchanges its operands, as the member does,
    and swapping twice gives back the operands as they were. *)
Theorem swap_involutive (lhs rhs : EnumFlags) :
  swap_nonmember lhs rhs = (rhs, lhs) /\
  swap lhs rhs = (rhs, lhs) /\
  swap_nonmember (fst (swap_nonmember lhs rhs)) (snd (swap_nonmember lhs rhs))
  = (lhs, rhs).
Proof.
  destruct lhs, rhs. repeat split.
Qed.

(** X19.  After [Clear] the flag set is the default-constructed one: [Has]
    and both [HasAny] are false on it whatever the argument, [HasAll] is
    true only of an empty argument, and an [Add] after it returns and
    leaves in the receiver what [operator&=] with the same argument returns
    and leaves. *)
Theorem Clear_queries (this flags : EnumFlags) (flag : Enum) :
  snd (Clear this) = EnumFlags_default /\
  HasAny_none (snd (Clear this)) = false /\
  Has (snd (Clear this)) flag = false /\
  HasAny (snd (Clear this)) flags = false /\
  HasAll (snd (Clear this)) flags = (flags_ flags =? 0) /\
  fst (Add (fst (Clear this)) flags) = fst (operator_and_assign this flags) /\
  snd (Add (snd (Clear this)) flags) = snd (operator_and_assign this flags).
Proof.
  repeat split.
Qed.

(** X20.  [operator|] is commutative and associative, a flag set is its own
    union with itself and with the empty flag set, and the result is what
    [operator|=] leaves in its receiver. *)
Theorem operator_or_laws (a b c : EnumFlags) :
  fst (operator_or a b) = fst (operator_or b a) /\
  fst (operator_or (fst (operator_or a b)) c)
  = fst (operator_or a (fst (operator_or b c))) /\
  fst (operator_or a a) = a /\
  fst (operator_or a EnumFlags_default) = a /\
  fst (operator_or a b) = snd (operator_or_assign a b).
Proof.
  repeat split; apply EnumFlags_eq; cbn; unfold operator_RawType.
  - apply Z.lor_comm.
  - symmetry. apply Z.lor_assoc.
  - apply Z.lor_diag.
  - apply Z.lor_0_r.
Qed.

(** X21.  [HasAny] does not depend on which flag set is the receiver, a flag
    set meets itself iff it is not empty, and a receiver that contains all of
    the argument meets it iff the argument is not empty. *)
Theorem HasAny_facts (a b : EnumFlags) :
  HasAny a b = HasAny b a /\
  HasAny a a = HasAny_none a /\
  (HasAll a b = true -> HasAny a b = HasAny_none b).
Proof.
  unfold HasAny, HasAll, HasAny_none, operator_RawType. repeat split.
  - now rewrite Z.land_comm.
  - now rewrite Z.land_diag.
  - rewrite Z.eqb_eq. now intros ->.
Qed.

Lemma Add_never_clears_Remove_never_sets_returned
    (this flags : EnumFlags) (flag : Enum) :
  (Has this flag = true -> Has (fst (Add this flags)) flag = true) /\
  (Has (fst (Remove digits this flags)) flag = true -> Has this flag = true).
Proof.
  rewrite !Has_iff_bits_meet, Add_flags_, Remove_flags_. unfold bits_meet.
  split; intros (i & Hi & Hbit & Hflag); exists i; repeat split; try assumption.
  - rewrite Z.lor_spec, Hbit. reflexivity.
  - rewrite Z.land_spec in Hbit. now apply andb_true_iff in Hbit.
Qed.

(** X22.  [Add] never clears and [Remove] never sets: a value that [Has]
    accepts is still accepted after any [Add], and a value that [Has] accepts
    after a [Remove] was accepted before it; both on the reference the call
    returns and on the receiver. *)
Theorem Add_never_clears_Remove_never_sets (this flags : EnumFlags) (flag : Enum) :
  (Has this flag = true -> Has (fst (Add this flags)) flag = true) /\
  (Has (fst (Remove digits this flags)) flag = true -> Has this flag = true) /\
  (Has this flag = true -> Has (snd (Add this flags)) flag = true) /\
  (Has (snd (Remove digits this flags)) flag = true -> Has this flag = true).
Proof.
  destruct (Add_never_clears_Remove_never_sets_returned this flags flag)
    as (Hadd & Hrem).
  rewrite <- Add_returns_this, <- (Remove_returns_this digits).
  repeat apply conj; assumption.
Qed.

End Algebra.

(** ** Instances of the further properties, on [Opt] *)

Module OptInstances.

Import Opt.

Ltac in_range := unfold EnumFlags_ok, Enum_ok, RawType_ok, digits; cbn; lia.

Lemma mutators_keep_range_witness :
  EnumFlags_ok digits (EnumFlags_of_initializer_list [A; B]) /\
  EnumFlags_ok digits (EnumFlags_of_initializer_list [B; C]) /\
  EnumFlags_ok digits
    (snd (Remove digits (EnumFlags_of_initializer_list [A; B])
                 (EnumFlags_of_initializer_list [B; C]))).
Proof.
  assert (Ha : EnumFlags_ok digits (EnumFlags_of_initializer_list [A; B])) by in_range.
  assert (Hb : EnumFlags_ok digits (EnumFlags_of_initializer_list [B; C])) by in_range.
  split; [exact Ha|]. split; [exact Hb|].
  exact (proj1 (proj2 (mutators_keep_range digits _ _ Ha Hb))).
Defined.

Lemma constructors_in_range_witness :
  0 <= digits /\ Forall (Enum_ok digits) [A; E] /\ Enum_ok digits D /\
  EnumFlags_ok digits (EnumFlags_of_range [A; E]).
Proof.
  assert (Hd : 0 <= digits) by (unfold digits; lia).
  assert (Hall : Forall (Enum_ok digits) [A; E]) by (repeat constructor; in_range).
  assert (Hf : Enum_ok digits D) by in_range.
  split; [exact Hd|]. split; [exact Hall|]. split; [exact Hf|].
  exact (proj1 (constructors_in_range digits [A; E] D Hd Hall Hf)).
Defined.

Lemma other_flag_untouched_witness :
  is_flag digits A /\ is_flag digits B /\ A <> B /\
  Has (fst (Add (EnumFlags_of_initializer_list [B; C]) (EnumFlags_of_Enum A))) B
  = Has (EnumFlags_of_initializer_list [B; C]) B /\
  Has (fst (Remove digits (EnumFlags_of_initializer_list [B; C]) (EnumFlags_of_Enum A))) B
  = Has (EnumFlags_of_initializer_list [B; C]) B /\
  Has (snd (Add (EnumFlags_of_initializer_list [B; C]) (EnumFlags_of_Enum A))) B
  = Has (EnumFlags_of_initializer_list [B; C]) B /\
  Has (snd (Remove digits (EnumFlags_of_initializer_list [B; C]) (EnumFlags_of_Enum A))) B
  = Has (EnumFlags_of_initializer_list [B; C]) B.
Proof.
  assert (Ha : is_flag digits A) by OptTests.minted_by 0%N.
  assert (Hb : is_flag digits B) by OptTests.minted_by 1%N.
  assert (Hne : A <> B) by discriminate.
  split; [exact Ha|]. split; [exact Hb|]. split; [exact Hne|].
  exact (other_flag_untouched digits (EnumFlags_of_initializer_list [B; C]) A B Ha Hb Hne).
Defined.

Lemma Remove_composes_witness :
  0 <= digits /\
  fst (Remove digits (fst (Remove digits (EnumFlags_of_initializer_list [A; B; C])
                                  (EnumFlags_of_Enum A)))
              (EnumFlags_of_Enum B))
  = fst (Remove digits (EnumFlags_of_initializer_list [A; B; C])
                (fst (operator_or (EnumFlags_of_Enum A) (EnumFlags_of_Enum B)))) /\
  snd (Remove digits (snd (Remove digits (EnumFlags_of_initializer_list [A; B; C])
                                  (EnumFlags_of_Enum A)))
              (EnumFlags_of_Enum B))
  = snd (Remove digits (EnumFlags_of_initializer_list [A; B; C])
                (fst (operator_or (EnumFlags_of_Enum A) (EnumFlags_of_Enum B)))).
Proof.
  assert (Hd : 0 <= digits) by (unfold digits; lia).
  split; [exact Hd|].
  destruct (Remove_composes digits (EnumFlags_of_initializer_list [A; B; C])
                            (EnumFlags_of_Enum A) (EnumFlags_of_Enum B) Hd)
    as (_ & Hret & _ & _ & Hrec & _).
  split; [exact Hret | exact Hrec].
Defined.

Lemma Add_after_Remove_witness :
  EnumFlags_ok digits (EnumFlags_of_initializer_list [A; B]) /\
  fst (Add (fst (Remove digits (EnumFlags_of_initializer_list [A; B])
                        (EnumFlags_of_initializer_list [B; C])))
           (EnumFlags_of_initializer_list [B; C]))
  = fst (Add (EnumFlags_of_initializer_list [A; B]) (EnumFlags_of_initializer_list [B; C])) /\
  snd (Add (snd (Remove digits (EnumFlags_of_initializer_list [A; B])
                        (EnumFlags_of_initializer_list [B; C])))
           (EnumFlags_of_initializer_list [B; C]))
  = snd (Add (EnumFlags_of_initializer_list [A; B]) (EnumFlags_of_initializer_list [B; C])).
Proof.
  assert (Ha : EnumFlags_ok digits (EnumFlags_of_initializer_list [A; B])) by in_range.
  split; [exact Ha|].
  exact (Add_after_Remove digits _ (EnumFlags_of_initializer_list [B; C]) Ha).
Defined.

Lemma Remove_self_is_Clear_witness :
  0 <= digits /\
  Remove digits (EnumFlags_of_initializer_list [A; D]) (EnumFlags_of_initializer_list [A; D])
  = Clear (EnumFlags_of_initializer_list [A; D]).
Proof.
  assert (Hd : 0 <= digits) by (unfold digits; lia).
  split; [exact Hd|].
  exact (Remove_self_is_Clear digits (EnumFlags_of_initializer_list [A; D]) Hd).
Defined.

Lemma HasAll_after_Remove_witness :
  0 <= digits /\
  HasAll (snd (Remove digits (EnumFlags_of_initializer_list [A; B]) (EnumFlags_of_Enum B)))
         (EnumFlags_of_Enum B)
  = (flags_ (EnumFlags_of_Enum B) =? 0) /\
  HasAll (fst (Remove digits (EnumFlags_of_initializer_list [A; B]) (EnumFlags_of_Enum B)))
         (EnumFlags_of_Enum B)
  = (flags_ (EnumFlags_of_Enum B) =? 0).
Proof.
  assert (Hd : 0 <= digits) by (unfold digits; lia).
  split; [exact Hd|].
  exact (HasAll_after_Remove digits (EnumFlags_of_initializer_list [A; B])
                             (EnumFlags_of_Enum B) Hd).
Defined.

Lemma HasAll_partial_order_witness :
  HasAll (EnumFlags_of_initializer_list [A; B; C]) (EnumFlags_of_initializer_list [A; B]) = true /\
  HasAll (EnumFlags_of_initializer_list [A; B]) (EnumFlags_of_Enum A) = true /\
  HasAll (EnumFlags_of_initializer_list [A; B; C]) (EnumFlags_of_Enum A) = true.
Proof.
  split; [reflexivity|]. split; [reflexivity|].
  apply (proj1 (proj2 (HasAll_partial_order
                         (EnumFlags_of_initializer_list [A; B; C])
                         (EnumFlags_of_initializer_list [A; B])
                         (EnumFlags_of_Enum A)))); reflexivity.
Defined.

Lemma HasAll_of_range_iff_witness :
  Forall (is_flag digits) [A; B] /\
  (HasAll (EnumFlags_of_initializer_list [A; B; C]) (EnumFlags_of_range [A; B]) = true <->
   (forall flag, In flag [A; B] ->
      Has (EnumFlags_of_initializer_list [A; B; C]) flag = true)).
Proof.
  assert (Hall : Forall (is_flag digits) [A; B])
    by (repeat constructor; [OptTests.minted_by 0%N | OptTests.minted_by 1%N]).
  split; [exact Hall|].
  exact (HasAll_of_range_iff digits (EnumFlags_of_initializer_list [A; B; C]) [A; B] Hall).
Defined.

Lemma operator_and_overloads_agree_witness :
  is_flag digits C /\
  operator_and_Enum (EnumFlags_of_initializer_list [A; C]) C
  = operator_and (EnumFlags_of_initializer_list [A; C]) (EnumFlags_of_Enum C).
Proof.
  assert (Hc : is_flag digits C) by OptTests.minted_by 2%N.
  split; [exact Hc|].
  exact (operator_and_overloads_agree digits (EnumFlags_of_initializer_list [A; C]) C Hc).
Defined.

Lemma Has_extensionality_witness :
  EnumFlags_ok digits (EnumFlags_of_initializer_list [A; B]) /\
  EnumFlags_ok digits (EnumFlags_of_range [B; A]) /\
  ((forall flag, is_flag digits flag ->
      Has (EnumFlags_of_initializer_list [A; B]) flag = Has (EnumFlags_of_range [B; A]) flag) <->
   operator_eq (EnumFlags_of_initializer_list [A; B]) (EnumFlags_of_range [B; A]) = true).
Proof.
  assert (Ha : EnumFlags_ok digits (EnumFlags_of_initializer_list [A; B])) by in_range.
  assert (Hb : EnumFlags_ok digits (EnumFlags_of_range [B; A])) by in_range.
  split; [exact Ha|]. split; [exact Hb|].
  exact (Has_extensionality digits _ _ Ha Hb).
Defined.

Lemma HasAny_none_iff_some_flag_witness :
  EnumFlags_ok digits (EnumFlags_of_Enum E) /\
  (HasAny_none (EnumFlags_of_Enum E) = true <->
   exists flag, is_flag digits flag /\ Has (EnumFlags_of_Enum E) flag = true).
Proof.
  assert (He : EnumFlags_ok digits (EnumFlags_of_Enum E)) by in_range.
  split; [exact He|].
  exact (HasAny_none_iff_some_flag digits (EnumFlags_of_Enum E) He).
Defined.

Lemma CreateFlag_distinct_witness :
  Z.of_N 0 < digits /\ Z.of_N 4 < digits /\
  CreateFlag digits 0 = Some (to_underlying A) /\
  CreateFlag digits 4 = Some (to_underlying E) /\
  (to_underlying A = to_underlying E <-> 0%N = 4%N) /\
  to_underlying A <> 0 /\
  (0%N <> 4%N -> Z.land (to_underlying A) (to_underlying E) = 0).
Proof.
  repeat (split; [reflexivity|]).
  apply (CreateFlag_distinct digits 0 4); reflexivity.
Defined.

(** Below [int] the shifted bit can leave the underlying type: with
    [std::uint8_t] and a shift of 8 the call yields [0]. *)
Lemma CreateFlag_beyond_width_witness :
  1 < 8 /\ 8 <= Z.of_N 8 /\ CreateFlag 8 8 = Some 0 /\ 0 = 0.
Proof.
  assert (Hd : 1 < 8) by lia.
  assert (Hs : 8 <= Z.of_N 8) by (cbn; lia).
  split; [exact Hd|]. split; [exact Hs|]. split; [reflexivity|].
  exact (CreateFlag_beyond_width 8 8 0 Hd Hs eq_refl).
Defined.

Lemma HasAny_facts_witness :
  HasAll (EnumFlags_of_initializer_list [A; B; C]) (EnumFlags_of_initializer_list [A; B]) = true /\
  HasAny (EnumFlags_of_initializer_list [A; B; C]) (EnumFlags_of_initializer_list [A; B])
  = HasAny_none (EnumFlags_of_initializer_list [A; B]).
Proof.
  split; [reflexivity|].
  apply (proj2 (proj2 (HasAny_facts (EnumFlags_of_initializer_list [A; B; C])
                                    (EnumFlags_of_initializer_list [A; B])))).
  reflexivity.
Defined.

Lemma Add_never_clears_Remove_never_sets_witness :
  Has (EnumFlags_of_initializer_list [A; B]) A = true /\
  Has (fst (Add (EnumFlags_of_initializer_list [A; B]) (EnumFlags_of_Enum C))) A = true /\
  Has (snd (Add (EnumFlags_of_initializer_list [A; B]) (EnumFlags_of_Enum C))) A = true.
Proof.
  split; [reflexivity|].
  destruct (Add_never_clears_Remove_never_sets digits
              (EnumFlags_of_initializer_list [A; B]) (EnumFlags_of_Enum C) A)
    as (Hret & _ & Hrec & _).
  split; [apply Hret | apply Hrec]; reflexivity.
Defined.

End OptInstances.
